(** * FileUploader: a drag-and-drop PDF picker, and the application's route table

    Shallow embedding of [app/components/FileUploader1.tsx] (the React
    component [FileUploader]) and of the route configuration that follows it.

    A handler of the component is a command in a small writer monad: running
    it yields the ordered list of effects it performs ([e.stopPropagation()],
    [setDisplayFile(v)], a call of the parent's [onFileSelect], ...).  The
    React runtime is modelled by explicit hook cells ([useState],
    [useEffect], [useCallback]) threaded through the render function. *)

From Stdlib Require Import String List ZArith Bool Lia DecimalString.
Import ListNotations.

#[local] Open Scope string_scope.
#[local] Open Scope list_scope.
#[local] Set Warnings "-register-all".

(* ===================================================================== *)
(** ** JavaScript values held by the component *)
(* ===================================================================== *)

Module Js.

(** A DOM [File] object: its identity (two objects are the same reference
    iff they are the same record) and the read-only attributes. *)
Record File := {
  file_id : positive;
  name : string;
  size : Z;
  type : string
}.

(** The values of [File | null | undefined]. *)
Inductive value :=
| undefined
| null
| ref (f : File).

Definition File_eqb (f g : File) : bool :=
  Pos.eqb (file_id f) (file_id g) && String.eqb (name f) (name g)
  && Z.eqb (size f) (size g) && String.eqb (type f) (type g).

(** [a === b] *)
Definition strict_eq (a b : value) : bool :=
  match a, b with
  | undefined, undefined => true
  | null, null => true
  | ref f, ref g => File_eqb f g
  | _, _ => false
  end.

(** [a !== b] *)
Definition strict_neq (a b : value) : bool := negb (strict_eq a b).

(** Truthiness: an object is truthy, [null] and [undefined] are not. *)
Definition truthy (v : value) : bool :=
  match v with
  | ref _ => true
  | null | undefined => false
  end.

(** [!v] *)
Definition not (v : value) : bool := negb (truthy v).

(** [a || b] *)
Definition or (a b : value) : value := if truthy a then a else b.

(** [xs[i]] on a [File[]]: [undefined] out of range. *)
Definition nth (xs : list File) (i : nat) : value :=
  match nth_error xs i with
  | Some f => ref f
  | None => undefined
  end.

End Js.

Import Js.

(* ===================================================================== *)
(** ** Effects and commands *)
(* ===================================================================== *)

(** The parent's [onFileSelect] function, by reference. *)
Definition Callback := positive.

Inductive effect :=
| StopPropagation                          (* e.stopPropagation() *)
| PreventDefault                           (* e.preventDefault() *)
| ConsoleLog (msg : string)                (* console.log(msg) *)
| SetDisplayFile (v : value)               (* setDisplayFile(v) *)
| Call (fn : Callback) (arg : value).      (* fn(arg) *)

(** A command returns a result and the effects it performed, in order. *)
Definition Cmd (A : Type) : Type := A * list effect.

Definition ret {A} (a : A) : Cmd A := (a, []).

Definition bind {A B} (c : Cmd A) (k : A -> Cmd B) : Cmd B :=
  let (a, t1) := c in
  let (b, t2) := k a in
  (b, t1 ++ t2).

Definition emit (e : effect) : Cmd unit := (tt, [e]).

Definition trace {A} (c : Cmd A) : list effect := snd c.

Declare Scope cmd_scope.
Delimit Scope cmd_scope with cmd.
Notation "c1 ;; c2" := (bind c1 (fun _ => c2))
  (at level 61, right associativity) : cmd_scope.

(** [fn?.(arg)]: the call is skipped when [fn] is absent. *)
Definition optional_call (fn : option Callback) (arg : value) : Cmd unit :=
  match fn with
  | Some f => emit (Call f arg)
  | None => ret tt
  end.

(* ===================================================================== *)
(** ** The component *)
(* ===================================================================== *)

(** [interface FileUploaderProps] *)
Record FileUploaderProps := {
  onFileSelect : option Callback;   (* onFileSelect?: (file: File | null) => void *)
  file : value                      (* file?: File | null; undefined when omitted *)
}.

(** Body of the [useEffect] callback, closed over [propFile] and the
    [displayFile] of the render that created it. *)
Definition fileToSet (propFile : value) : value :=
  if strict_eq propFile undefined then null else propFile.

Definition syncEffect (propFile displayFile : value) : Cmd unit :=
  let fileToSet := fileToSet propFile in
  if strict_neq fileToSet displayFile
  then emit (SetDisplayFile fileToSet)
  else ret tt.

(** Body of [onDrop], closed over [onFileSelect]. *)
Definition onDrop (onFileSelect : option Callback) (acceptedFiles : list File)
  : Cmd unit :=
  let droppedFile := Js.or (Js.nth acceptedFiles 0) null in
  (emit (SetDisplayFile droppedFile) ;;
   optional_call onFileSelect droppedFile)%cmd.

Definition maxFileSize : Z := 20 * 1024 * 1024.

(** Body of [handleRemoveFile], closed over [onFileSelect]; the effects on
    [e] are those on the mouse event that triggered it. *)
Definition handleRemoveFile (onFileSelect : option Callback) : Cmd unit :=
  (emit StopPropagation ;;
   emit PreventDefault ;;
   emit (ConsoleLog "Cross button clicked, stopping propagation and default.") ;;
   emit (SetDisplayFile null) ;;
   optional_call onFileSelect null)%cmd.

(** The options object handed to [useDropzone]. *)
Record DropzoneOptions := {
  dz_onDrop : list File -> Cmd unit;
  multiple : bool;
  accept : list (string * list string);
  maxSize : Z;
  noClick : bool
}.

(** [const { getRootProps, getInputProps } = useDropzone(...)]: the two
    property bags are the library's; the view only spreads them. *)
Inductive dropzone_props := RootProps | InputProps.

(** Virtual DOM produced by the JSX of the component. *)
Inductive attr :=
| Attr (key val : string)          (* className="..." , src="..." *)
| OnClick (h : Cmd unit)           (* onClick={h} *)
| Spread (p : dropzone_props).     (* {...getRootProps()} *)

Inductive node :=
| Text (s : string)
| Elem (tag : string) (attrs : list attr) (children : list node).

(** Hook cells of one mounted instance, in call order. *)
Record Hooks := {
  displayFile : value;                 (* useState<File | null>(null) *)
  effectDeps : option value;           (* useEffect(..., [propFile]); None before mount *)
  onDropMemo : option ((list File -> Cmd unit) * option Callback)
                                       (* useCallback(..., [onFileSelect]) *)
}.

Definition initial_hooks : Hooks :=
  {| displayFile := null; effectDeps := None; onDropMemo := None |}.

(** Dependency comparison of the two hooks ([Object.is], which agrees with
    [===] on references, [null] and [undefined]). *)
Definition same_callback (a b : option Callback) : bool :=
  match a, b with
  | Some x, Some y => Pos.eqb x y
  | None, None => true
  | _, _ => false
  end.

Definition useEffect_fires (cell : option value) (dep : value) : bool :=
  match cell with
  | None => true
  | Some old => strict_neq old dep
  end.

Definition useCallback {F : Type} (cell : option (F * option Callback))
  (fn : F) (dep : option Callback) : F :=
  match cell with
  | Some (memo, old) => if same_callback old dep then memo else fn
  | None => fn
  end.

(* ===================================================================== *)
(** ** The route table *)
(* ===================================================================== *)

Module Routes.

(** An entry as built by [index] and [route] of [@react-router/dev/routes]. *)
Record RouteConfigEntry := {
  path : option string;
  is_index : bool;
  file : string
}.

Definition index (file : string) : RouteConfigEntry :=
  {| path := None; is_index := true; file := file |}.

Definition route (path file : string) : RouteConfigEntry :=
  {| path := Some path; is_index := false; file := file |}.

(** [export default [...] satisfies RouteConfig] *)
Definition routes : list RouteConfigEntry :=
  [ index "routes/home.tsx";
    route "/auth" "routes/Auth.tsx";
    route "/upload" "routes/Upload.tsx" ].

(** The URL path an entry answers to: an index entry answers to the path
    of its parent, here the root. *)
Definition url_path (e : RouteConfigEntry) : string :=
  if is_index e then "/"
  else match path e with
       | Some p => p
       | None => ""
       end.

End Routes.

(* ===================================================================== *)
(** ** Sample data *)
(* ===================================================================== *)

Module Sample.

Definition resume : File :=
  {| file_id := 1; name := "resume.pdf"; size := 48213;
     type := "application/pdf" |}.

Definition letter : File :=
  {| file_id := 2; name := "letter.pdf"; size := 1024;
     type := "application/pdf" |}.

(** Neither a PDF nor within the size limit. *)
Definition scan : File :=
  {| file_id := 3; name := "scan.png"; size := 30 * 1024 * 1024;
     type := "image/png" |}.

Definition parent_handler : Callback := 7%positive.

(** A formatter to instantiate [formatSize] with. *)
Definition bytes (n : Z) : string :=
  NilZero.string_of_int (Z.to_int n) ++ " Bytes".

Definition with_callback : FileUploaderProps :=
  {| onFileSelect := Some parent_handler; file := undefined |}.

Definition controlled : FileUploaderProps :=
  {| onFileSelect := Some parent_handler; file := ref resume |}.

Definition other_handler : Callback := 9%positive.

Definition with_other_callback : FileUploaderProps :=
  {| onFileSelect := Some other_handler; file := undefined |}.

End Sample.

(* ===================================================================== *)
(** ** Rendering and the runtime *)
(* ===================================================================== *)

(** What one call of the component function produces. *)
Record Rendered := {
  view : node;
  dropzone : DropzoneOptions;
  pending : list (Cmd unit);    (* effects to run after the commit *)
  cells : Hooks
}.

Section Component.

(** [formatSize] of [~/lib/utils] is outside this file: any function from a
    byte count to its textual form. *)
Variable formatSize : Z -> string.

Definition selected_file (f : File) (handleRemoveFile : Cmd unit) : node :=
  Elem "div" [Attr "className" "uploader-selected-file";
              OnClick (emit StopPropagation)]
    [ Elem "img" [Attr "src" "/images/pdf.png"; Attr "alt" "pdf";
                  Attr "className" "size-10"] [];
      Elem "div" [Attr "className" "flex items-center space-x-3"]
        [ Elem "div" []
            [ Elem "p" [Attr "className"
                          "text-sm font-medium text-gray-700 truncate max-w-xs"]
                [Text (name f)];
              Elem "p" [Attr "className" "text-sm text-gray-500"]
                [Text (formatSize (size f))] ] ];
      Elem "button" [Attr "type" "button"; Attr "className" "p-2 cursor-pointer";
                     OnClick handleRemoveFile]
        [ Elem "img" [Attr "src" "/icons/cross.svg"; Attr "alt" "remove";
                      Attr "className" "w-4 h-4"] [] ] ].

Definition drag_area : node :=
  Elem "div" [Spread RootProps; Attr "className" "uplader-drag-area"]
    [ Elem "input" [Spread InputProps] [];
      Elem "div" [Attr "className"
                    "mx-auto w-16 h-16 flex items-center justify-center mb-2"]
        [ Elem "img" [Attr "src" "/icons/info.svg"; Attr "alt" "upload";
                      Attr "className" "size-20"] [] ];
      Elem "p" [Attr "className" "text-lg text-gray-500"]
        [ Elem "span" [Attr "className" "font-semibold"] [Text "Click to upload"];
          Text " or drag and drop" ];
      Elem "p" [Attr "className" "text-lg text-gray-500"]
        [ Text "PDF ("; Text (formatSize maxFileSize); Text ")" ] ].

(** The component function: one render with the given props and cells. *)
Definition FileUploader (p : FileUploaderProps) (h : Hooks) : Rendered :=
  let propFile := file p in
  let displayFile := displayFile h in
  let fires := useEffect_fires (effectDeps h) propFile in
  let onDrop := useCallback (onDropMemo h) (onDrop (onFileSelect p))
                  (onFileSelect p) in
  let options :=
    {| dz_onDrop := onDrop;
       multiple := false;
       accept := [("application/pdf", [".pdf"])];
       maxSize := maxFileSize;
       noClick := negb (Js.not displayFile) |} in
  let handleRemoveFile := handleRemoveFile (onFileSelect p) in
  {| view :=
       Elem "div" [Attr "className" "w-full gradient-border"]
         [ match displayFile with
           | ref f => selected_file f handleRemoveFile
           | null | undefined => drag_area
           end ];
     dropzone := options;
     pending := if fires then [syncEffect propFile displayFile] else [];
     cells := {| displayFile := displayFile;
                 effectDeps := Some propFile;
                 onDropMemo := Some (onDrop, onFileSelect p) |} |}.

(* ------------------------------------------------------------------- *)
(** *** Reading the view *)

Definition onClick_of (attrs : list attr) : option (Cmd unit) :=
  match find (fun a => match a with OnClick _ => true | _ => false end) attrs with
  | Some (OnClick h) => Some h
  | _ => None
  end.

Definition spreads (p : dropzone_props) (attrs : list attr) : bool :=
  existsb (fun a => match a, p with
                    | Spread RootProps, RootProps => true
                    | Spread InputProps, InputProps => true
                    | _, _ => false
                    end) attrs.

(** The click handler of the first [<button>] of the tree, if any. *)
Fixpoint button_onClick (n : node) : option (Cmd unit) :=
  match n with
  | Text _ => None
  | Elem tag attrs children =>
      if String.eqb tag "button" then onClick_of attrs
      else (fix first (l : list node) : option (Cmd unit) :=
              match l with
              | [] => None
              | k :: l' => match button_onClick k with
                           | Some h => Some h
                           | None => first l'
                           end
              end) children
  end.

(** Whether some element of the tree carries the dropzone's root props. *)
Fixpoint has_dropzone_root (n : node) : bool :=
  match n with
  | Text _ => false
  | Elem _ attrs children =>
      spreads RootProps attrs
      || (fix any (l : list node) : bool :=
            match l with
            | [] => false
            | k :: l' => has_dropzone_root k || any l'
            end) children
  end.

(** All text rendered by the tree, in document order. *)
Fixpoint texts (n : node) : list string :=
  match n with
  | Text s => [s]
  | Elem _ _ children =>
      (fix all (l : list node) : list string :=
         match l with
         | [] => []
         | k :: l' => texts k ++ all l'
         end) children
  end.

(* ------------------------------------------------------------------- *)
(** *** The runtime: commits, effects and events *)

(** A state update replaces the cell; other effects leave it alone. *)
Definition reduce (st : value) (e : effect) : value :=
  match e with
  | SetDisplayFile v => v
  | _ => st
  end.

Definition commit (h : Hooks) (t : list effect) : Hooks :=
  {| displayFile := fold_left reduce t (displayFile h);
     effectDeps := effectDeps h;
     onDropMemo := onDropMemo h |}.

(** Render, then run the scheduled effects and apply their updates. *)
Definition render_pass (p : FileUploaderProps) (h : Hooks)
  : Hooks * list effect :=
  let r := FileUploader p h in
  let t := flat_map trace (pending r) in
  (commit (cells r) t, t).

Record Mounted := {
  props : FileUploaderProps;
  hooks : Hooks
}.

(** What is on screen for a mounted instance. *)
Definition screen (s : Mounted) : Rendered := FileUploader (props s) (hooks s).

Definition mount (p : FileUploaderProps) : Mounted * list effect :=
  let (h, t) := render_pass p initial_hooks in
  ({| props := p; hooks := h |}, t).

(** A handler ran with trace [t]: apply its updates and render again. *)
Definition after_handler (s : Mounted) (t : list effect)
  : Mounted * list effect :=
  let (h, t') := render_pass (props s) (commit (hooks s) t) in
  ({| props := props s; hooks := h |}, t ++ t').

Inductive event :=
| Drop (acceptedFiles : list File)     (* the library delivers a drop *)
| ClickRemove                          (* click on the cross button *)
| Rerender (p : FileUploaderProps).    (* the parent renders with new props *)

(** An event is possible only on what is on screen: a drop needs the
    element carrying the root props, a click needs the button. *)
Definition dispatch (s : Mounted) (ev : event)
  : option (Mounted * list effect) :=
  match ev with
  | Drop acceptedFiles =>
      if has_dropzone_root (view (screen s))
      then Some (after_handler s
                   (trace (dz_onDrop (dropzone (screen s)) acceptedFiles)))
      else None
  | ClickRemove =>
      match button_onClick (view (screen s)) with
      | Some h => Some (after_handler s (trace h))
      | None => None
      end
  | Rerender p =>
      let (h, t) := render_pass p (hooks s) in
      Some ({| props := p; hooks := h |}, t)
  end.

Inductive reachable : Mounted -> Prop :=
| reach_mount p : reachable (fst (mount p))
| reach_step s ev s' t :
    reachable s -> dispatch s ev = Some (s', t) -> reachable s'.

(** The calls of parent functions among the effects of a trace. *)
Definition calls (t : list effect) : list (Callback * value) :=
  flat_map (fun e => match e with Call fn v => [(fn, v)] | _ => [] end) t.

(** What [fn?.(v)] contributes to [calls]. *)
Definition notified (fn : option Callback) (v : value)
  : list (Callback * value) :=
  match fn with
  | Some f => [(f, v)]
  | None => []
  end.

(** The cells agree with the props of the last render. *)
Definition settled (s : Mounted) : Prop :=
  effectDeps (hooks s) = Some (file (props s))
  /\ onDropMemo (hooks s)
     = Some (onDrop (onFileSelect (props s)), onFileSelect (props s))
  /\ displayFile (hooks s) <> undefined.

(** The files the instance holds on to. *)
Definition tracked (h : Hooks) : list File :=
  match displayFile h with
  | ref f => [f]
  | null | undefined => []
  end.

(** A value of the declared type [File | null]. *)
Definition file_or_null (v : value) : Prop :=
  v = null \/ exists f, v = ref f.

(** A sequence of events handled one after the other, with the effects of
    all of them; [None] as soon as one is not possible. *)
Fixpoint run_events (s : Mounted) (evs : list event)
  : option (Mounted * list effect) :=
  match evs with
  | [] => Some (s, [])
  | ev :: evs' =>
      match dispatch s ev with
      | Some (s1, t1) =>
          match run_events s1 evs' with
          | Some (s2, t2) => Some (s2, t1 ++ t2)
          | None => None
          end
      | None => None
      end
  end.

(** The files an event brings to the instance. *)
Definition offered (ev : event) : list File :=
  match ev with
  | Drop acceptedFiles => acceptedFiles
  | ClickRemove => []
  | Rerender p => match file p with
                  | ref f => [f]
                  | null | undefined => []
                  end
  end.

(** Events of the user, as opposed to renders by the parent. *)
Definition user_event (ev : event) : bool :=
  match ev with
  | Drop _ | ClickRemove => true
  | Rerender _ => false
  end.

(* ------------------------------------------------------------------- *)
(** *** Facts about values and traces *)

Lemma File_eqb_eq (f g : File) : File_eqb f g = true <-> f = g.
Proof.
  unfold File_eqb. split.
  - intros H. repeat (apply andb_prop in H; destruct H as [H ?]).
    destruct f, g; simpl in *.
    apply Pos.eqb_eq in H. apply String.eqb_eq in H2, H0. apply Z.eqb_eq in H1.
    congruence.
  - intros ->. rewrite Pos.eqb_refl, Z.eqb_refl, !String.eqb_refl. reflexivity.
Qed.

Lemma strict_eq_spec (a b : value) : reflect (a = b) (strict_eq a b).
Proof.
  apply iff_reflect. destruct a, b; simpl; try (split; congruence).
  rewrite File_eqb_eq. split; congruence.
Qed.

Lemma strict_eq_refl (a : value) : strict_eq a a = true.
Proof. destruct (strict_eq_spec a a); congruence. Qed.

Lemma same_callback_spec (a b : option Callback) :
  reflect (a = b) (same_callback a b).
Proof.
  apply iff_reflect. destruct a, b; simpl; try (split; congruence).
  rewrite Pos.eqb_eq. split; congruence.
Qed.

Lemma trace_bind {A B} (c : Cmd A) (k : A -> Cmd B) :
  trace (bind c k) = trace c ++ trace (k (fst c)).
Proof. destruct c as [a t]. simpl. destruct (k a). reflexivity. Qed.

(** [acceptedFiles[0] || null] is the head of the list, or [null]. *)
Lemma droppedFile_head (acceptedFiles : list File) :
  Js.or (Js.nth acceptedFiles 0) null
  = match acceptedFiles with
    | f :: _ => ref f
    | [] => null
    end.
Proof. destruct acceptedFiles; reflexivity. Qed.

Lemma onDrop_trace (cb : option Callback) (acceptedFiles : list File) :
  trace (onDrop cb acceptedFiles)
  = SetDisplayFile (Js.or (Js.nth acceptedFiles 0) null)
    :: trace (optional_call cb (Js.or (Js.nth acceptedFiles 0) null)).
Proof. unfold onDrop. destruct cb; reflexivity. Qed.

Lemma handleRemoveFile_trace (cb : option Callback) :
  trace (handleRemoveFile cb)
  = [StopPropagation; PreventDefault;
     ConsoleLog "Cross button clicked, stopping propagation and default.";
     SetDisplayFile null] ++ trace (optional_call cb null).
Proof. destruct cb; reflexivity. Qed.

Lemma calls_optional_call (cb : option Callback) (v : value) :
  calls (trace (optional_call cb v)) = notified cb v.
Proof. destruct cb; reflexivity. Qed.

Lemma calls_app (t1 t2 : list effect) : calls (t1 ++ t2) = calls t1 ++ calls t2.
Proof. unfold calls. apply flat_map_app. Qed.

Lemma reduce_optional_call (cb : option Callback) (v st : value) :
  fold_left reduce (trace (optional_call cb v)) st = st.
Proof. destruct cb; reflexivity. Qed.

(** The value [syncEffect] leaves in the cell. *)
Lemma syncEffect_result (propFile displayFile0 : value) :
  fold_left reduce (trace (syncEffect propFile displayFile0)) displayFile0
  = fileToSet propFile.
Proof.
  unfold syncEffect, strict_neq.
  destruct (strict_eq_spec (fileToSet propFile) displayFile0) as [Heq | Hneq];
    simpl; congruence.
Qed.

Lemma syncEffect_calls (propFile displayFile0 : value) :
  calls (trace (syncEffect propFile displayFile0)) = [].
Proof.
  unfold syncEffect.
  destruct (strict_neq _ displayFile0); reflexivity.
Qed.

(* ------------------------------------------------------------------- *)
(** *** Facts about the runtime *)

Lemma hooks_eta (h : Hooks) :
  {| displayFile := displayFile h; effectDeps := effectDeps h;
     onDropMemo := onDropMemo h |} = h.
Proof. destruct h; reflexivity. Qed.

Lemma commit_nil (h : Hooks) : commit h [] = h.
Proof. apply hooks_eta. Qed.

(** With cells that agree with the props, a render schedules no effect,
    keeps the cells and hands the dropzone the [onDrop] of these props. *)
Lemma FileUploader_settled (p : FileUploaderProps) (h : Hooks) :
  effectDeps h = Some (file p) ->
  onDropMemo h = Some (onDrop (onFileSelect p), onFileSelect p) ->
  pending (FileUploader p h) = []
  /\ cells (FileUploader p h) = h
  /\ dz_onDrop (dropzone (FileUploader p h)) = onDrop (onFileSelect p).
Proof.
  intros Hdeps Hmemo. destruct h as [d e m]; simpl in *. subst e m.
  unfold FileUploader; simpl. unfold strict_neq.
  rewrite strict_eq_refl.
  destruct (same_callback_spec (onFileSelect p) (onFileSelect p)); [| congruence].
  simpl. repeat split.
Qed.

Lemma render_pass_settled (p : FileUploaderProps) (h : Hooks) :
  effectDeps h = Some (file p) ->
  onDropMemo h = Some (onDrop (onFileSelect p), onFileSelect p) ->
  render_pass p h = (h, []).
Proof.
  intros Hdeps Hmemo.
  destruct (FileUploader_settled p h Hdeps Hmemo) as (Hp & Hc & _).
  unfold render_pass. rewrite Hp, Hc. simpl. now rewrite commit_nil.
Qed.

Lemma after_handler_settled (s : Mounted) (t : list effect) :
  settled s ->
  after_handler s t = ({| props := props s; hooks := commit (hooks s) t |}, t).
Proof.
  intros (Hdeps & Hmemo & _). unfold after_handler.
  rewrite render_pass_settled by assumption.
  now rewrite app_nil_r.
Qed.

Lemma view_screen (s : Mounted) :
  view (screen s)
  = Elem "div" [Attr "className" "w-full gradient-border"]
      [ match displayFile (hooks s) with
        | ref f => selected_file f (handleRemoveFile (onFileSelect (props s)))
        | null | undefined => drag_area
        end ].
Proof. reflexivity. Qed.

Lemma has_dropzone_root_screen (s : Mounted) :
  has_dropzone_root (view (screen s)) = negb (truthy (displayFile (hooks s))).
Proof. rewrite view_screen. destruct (displayFile (hooks s)); reflexivity. Qed.

Lemma button_onClick_screen (s : Mounted) :
  button_onClick (view (screen s))
  = if truthy (displayFile (hooks s))
    then Some (handleRemoveFile (onFileSelect (props s)))
    else None.
Proof. rewrite view_screen. destruct (displayFile (hooks s)); reflexivity. Qed.

(** A drop is delivered only while the drop area is on screen. *)
Lemma dispatch_Drop (s : Mounted) (acceptedFiles : list File) :
  settled s ->
  dispatch s (Drop acceptedFiles)
  = if truthy (displayFile (hooks s)) then None
    else let t := trace (onDrop (onFileSelect (props s)) acceptedFiles) in
         Some ({| props := props s; hooks := commit (hooks s) t |}, t).
Proof.
  intros Hs. unfold dispatch. rewrite has_dropzone_root_screen.
  destruct (truthy (displayFile (hooks s))); cbn [negb]; [reflexivity |].
  destruct Hs as (Hdeps & Hmemo & Hdef).
  destruct (FileUploader_settled _ _ Hdeps Hmemo) as (_ & _ & Hdrop).
  unfold screen. rewrite Hdrop.
  now rewrite after_handler_settled by (repeat split; assumption).
Qed.

(** The cross button exists only while a file is on screen. *)
Lemma dispatch_ClickRemove (s : Mounted) :
  settled s ->
  dispatch s ClickRemove
  = if truthy (displayFile (hooks s))
    then let t := trace (handleRemoveFile (onFileSelect (props s))) in
         Some ({| props := props s; hooks := commit (hooks s) t |}, t)
    else None.
Proof.
  intros Hs. unfold dispatch. rewrite button_onClick_screen.
  destruct (truthy (displayFile (hooks s))); [| reflexivity].
  now rewrite after_handler_settled.
Qed.

Lemma commit_onDrop (h : Hooks) (cb : option Callback) (acceptedFiles : list File) :
  displayFile (commit h (trace (onDrop cb acceptedFiles)))
  = Js.or (Js.nth acceptedFiles 0) null.
Proof. rewrite onDrop_trace. simpl. apply reduce_optional_call. Qed.

Lemma commit_handleRemoveFile (h : Hooks) (cb : option Callback) :
  displayFile (commit h (trace (handleRemoveFile cb))) = null.
Proof. rewrite handleRemoveFile_trace. simpl. apply reduce_optional_call. Qed.

(** The cell a render pass leaves, and the calls it makes: none. *)
Lemma render_pass_displayFile (p : FileUploaderProps) (h : Hooks) :
  displayFile (fst (render_pass p h))
  = if useEffect_fires (effectDeps h) (file p)
    then fileToSet (file p)
    else displayFile h.
Proof.
  unfold render_pass, FileUploader; simpl.
  destruct (useEffect_fires (effectDeps h) (file p)); simpl; [| reflexivity].
  rewrite app_nil_r. apply syncEffect_result.
Qed.

Lemma render_pass_calls (p : FileUploaderProps) (h : Hooks) :
  calls (snd (render_pass p h)) = [].
Proof.
  unfold render_pass, FileUploader; simpl.
  destruct (useEffect_fires (effectDeps h) (file p)); simpl; [| reflexivity].
  rewrite app_nil_r. apply syncEffect_calls.
Qed.

Lemma render_pass_cells (p : FileUploaderProps) (h : Hooks) :
  (h = initial_hooks
   \/ exists q, onDropMemo h = Some (onDrop (onFileSelect q), onFileSelect q)) ->
  effectDeps (fst (render_pass p h)) = Some (file p)
  /\ onDropMemo (fst (render_pass p h))
     = Some (onDrop (onFileSelect p), onFileSelect p).
Proof.
  intros Hm. unfold render_pass, FileUploader; simpl. split; [reflexivity |].
  destruct Hm as [-> | [q Hq]]; simpl; [reflexivity |].
  rewrite Hq; simpl.
  destruct (same_callback_spec (onFileSelect q) (onFileSelect p)) as [-> | _];
    reflexivity.
Qed.

Lemma fileToSet_defined (v : value) : fileToSet v <> undefined.
Proof. destruct v; discriminate. Qed.

Lemma droppedFile_defined (acceptedFiles : list File) :
  Js.or (Js.nth acceptedFiles 0) null <> undefined.
Proof. rewrite droppedFile_head. destruct acceptedFiles; discriminate. Qed.

Lemma mount_settled (p : FileUploaderProps) : settled (fst (mount p)).
Proof.
  unfold mount.
  pose proof (render_pass_cells p initial_hooks (or_introl eq_refl)) as [Hd Hm].
  pose proof (render_pass_displayFile p initial_hooks) as Hf.
  destruct (render_pass p initial_hooks) as [h t]; simpl in *.
  unfold settled; simpl. split; [assumption | split; [assumption |]].
  rewrite Hf. apply fileToSet_defined.
Qed.

Lemma dispatch_settled (s s' : Mounted) (ev : event) (t : list effect) :
  settled s -> dispatch s ev = Some (s', t) -> settled s'.
Proof.
  intros Hs Hev. destruct ev as [acceptedFiles | | p].
  - rewrite dispatch_Drop in Hev by assumption.
    destruct (truthy (displayFile (hooks s))); [discriminate |].
    injection Hev as <- <-. destruct Hs as (Hd & Hm & _).
    unfold settled; simpl. split; [assumption | split; [assumption |]].
    rewrite onDrop_trace. simpl. rewrite reduce_optional_call.
    apply droppedFile_defined.
  - rewrite dispatch_ClickRemove in Hev by assumption.
    destruct (truthy (displayFile (hooks s))); [| discriminate].
    injection Hev as <- <-. destruct Hs as (Hd & Hm & _).
    unfold settled; simpl. split; [assumption | split; [assumption |]].
    rewrite handleRemoveFile_trace. simpl. rewrite reduce_optional_call.
    discriminate.
  - destruct Hs as (Hd & Hm & Hdef). unfold dispatch in Hev.
    assert (Hq : hooks s = initial_hooks
                 \/ exists q, onDropMemo (hooks s)
                              = Some (onDrop (onFileSelect q), onFileSelect q))
      by (right; eauto).
    pose proof (render_pass_cells p (hooks s) Hq) as [Hd' Hm'].
    pose proof (render_pass_displayFile p (hooks s)) as Hf.
    destruct (render_pass p (hooks s)) as [h t0]; simpl in *.
    injection Hev as <- <-. unfold settled; simpl.
    split; [assumption | split; [assumption |]].
    rewrite Hf. destruct (useEffect_fires _ _); [apply fileToSet_defined | assumption].
Qed.

Lemma reachable_settled (s : Mounted) : reachable s -> settled s.
Proof.
  induction 1 as [p | s ev s' t _ IH Hev].
  - apply mount_settled.
  - eapply dispatch_settled; eassumption.
Qed.

Lemma file_or_null_defined (v : value) : v <> undefined -> file_or_null v.
Proof. destruct v; [congruence | now left | right; eauto]. Qed.

Lemma mount_calls (p : FileUploaderProps) : calls (snd (mount p)) = [].
Proof.
  unfold mount. pose proof (render_pass_calls p initial_hooks) as H.
  destruct (render_pass p initial_hooks); assumption.
Qed.

(* ------------------------------------------------------------------- *)
(** *** Dropping a file *)

(** C1. When the library delivers a drop whose first accepted file is [f],
    the cell holds [f] afterwards, the view shows exactly the name of [f]
    and its formatted size, and [onFileSelect], when the parent gave one,
    is called once, with [f]. *)
Theorem onDrop_displays_and_notifies
  (s s' : Mounted) (f : File) (rest : list File) (t : list effect) :
  reachable s ->
  dispatch s (Drop (f :: rest)) = Some (s', t) ->
  displayFile (hooks s') = ref f
  /\ texts (view (screen s')) = [name f; formatSize (size f)]
  /\ calls t = notified (onFileSelect (props s)) (ref f).
Proof.
  intros Hr Hev. apply reachable_settled in Hr.
  rewrite dispatch_Drop in Hev by assumption.
  destruct (truthy (displayFile (hooks s))); [discriminate |].
  injection Hev as <- <-.
  assert (Hcell : displayFile (commit (hooks s)
                    (trace (onDrop (onFileSelect (props s)) (f :: rest)))) = ref f)
    by (rewrite commit_onDrop; reflexivity).
  split; [exact Hcell |]. split.
  - rewrite view_screen. cbn [hooks props]. rewrite Hcell. reflexivity.
  - rewrite onDrop_trace. cbn [calls flat_map app].
    fold (calls (trace (optional_call (onFileSelect (props s))
                          (Js.or (Js.nth (f :: rest) 0) null)))).
    rewrite calls_optional_call. reflexivity.
Qed.

(** C9. Called with no accepted file, [onDrop] leaves [null] in the cell
    whatever it held before, and calls [onFileSelect], when given, with
    [null]. *)
Theorem onDrop_empty_clears (cb : option Callback) (h : Hooks) :
  displayFile (commit h (trace (onDrop cb []))) = null
  /\ calls (trace (onDrop cb [])) = notified cb null.
Proof.
  split.
  - rewrite commit_onDrop. reflexivity.
  - destruct cb; reflexivity.
Qed.


(** A drop of a file that is no PDF and exceeds [maxFileSize], once handed
    to [onDrop], is displayed like any other. *)
Example onDrop_takes_scan :
  type Sample.scan <> "application/pdf"
  /\ (maxFileSize < size Sample.scan)%Z
  /\ displayFile (commit initial_hooks (trace (onDrop None [Sample.scan])))
     = ref Sample.scan.
Proof. repeat split; [discriminate]. Qed.

(* ------------------------------------------------------------------- *)
(** *** Removing the file *)

(** C2. While a file is displayed, a click on the cross button is handled:
    afterwards the cell holds [null], the view is the drop area again, and
    [onFileSelect], when the parent gave one, is called once, with
    [null]. *)
Theorem handleRemoveFile_clears_and_notifies (s : Mounted) (f : File) :
  reachable s ->
  displayFile (hooks s) = ref f ->
  exists (s' : Mounted) (t : list effect),
    dispatch s ClickRemove = Some (s', t)
    /\ displayFile (hooks s') = null
    /\ view (screen s')
       = Elem "div" [Attr "className" "w-full gradient-border"] [drag_area]
    /\ has_dropzone_root (view (screen s')) = true
    /\ calls t = notified (onFileSelect (props s)) null.
Proof.
  intros Hr Hf. apply reachable_settled in Hr.
  pose proof (dispatch_ClickRemove s Hr) as Hev. rewrite Hf in Hev. cbn [truthy] in Hev.
  eexists _, _. split; [exact Hev |].
  assert (Hcell : displayFile (commit (hooks s)
                    (trace (handleRemoveFile (onFileSelect (props s))))) = null)
    by apply commit_handleRemoveFile.
  split; [exact Hcell |]. split; [| split].
  - rewrite view_screen. cbn [hooks props]. rewrite Hcell. reflexivity.
  - rewrite has_dropzone_root_screen. cbn [hooks]. rewrite Hcell. reflexivity.
  - destruct (onFileSelect (props s)); reflexivity.
Qed.

(** C8. Every run of [handleRemoveFile] performs the same straight line of
    effects: [stopPropagation], [preventDefault], a log line, the update of
    the cell to [null], then the optional call; both calls on the event
    come before the update, and nothing is tested on the way. *)
Theorem handleRemoveFile_only_guards_propagation (cb : option Callback) :
  trace (handleRemoveFile cb)
  = StopPropagation :: PreventDefault
    :: ConsoleLog "Cross button clicked, stopping propagation and default."
    :: SetDisplayFile null :: trace (optional_call cb null)
  /\ exists before after : list effect,
       trace (handleRemoveFile cb) = before ++ SetDisplayFile null :: after
       /\ In StopPropagation before
       /\ In PreventDefault before
       /\ Forall (fun e => forall v, e <> SetDisplayFile v) before
       /\ Forall (fun e => forall v, e <> SetDisplayFile v) after.
Proof.
  split; [apply handleRemoveFile_trace |].
  exists [StopPropagation; PreventDefault;
          ConsoleLog "Cross button clicked, stopping propagation and default."],
         (trace (optional_call cb null)).
  split; [apply handleRemoveFile_trace |].
  split; [now left |]. split; [right; now left |].
  split.
  - repeat constructor; discriminate.
  - destruct cb; repeat constructor; discriminate.
Qed.

(* ------------------------------------------------------------------- *)
(** *** Following the [file] prop *)


(** After a render with a changed [file] prop the cell follows the prop;
    with the same [file] prop it is left as it was. *)
Lemma Rerender_displayFile (s s' : Mounted) (p : FileUploaderProps)
  (t : list effect) :
  reachable s ->
  dispatch s (Rerender p) = Some (s', t) ->
  displayFile (hooks s')
  = if strict_eq (file (props s)) (file p)
    then displayFile (hooks s)
    else fileToSet (file p).
Proof.
  intros Hr Hev. apply reachable_settled in Hr. destruct Hr as (Hd & _ & _).
  unfold dispatch in Hev.
  pose proof (render_pass_displayFile p (hooks s)) as H.
  destruct (render_pass p (hooks s)) as [h0 t0].
  injection Hev as <- <-. cbn in H |- *.
  rewrite H, Hd. cbn. unfold strict_neq.
  destruct (strict_eq (file (props s)) (file p)); reflexivity.
Qed.

(* ------------------------------------------------------------------- *)
(** *** Invariants of a mounted instance *)

(** C5. In every reachable state the dropzone is told [multiple: false],
    the [onDrop] it was given keeps the first accepted file only (or
    [null] when there is none), and the one cell of the instance holds
    [null] or a single file: at most one file is tracked. *)
Theorem at_most_one_file_tracked (s : Mounted) :
  reachable s ->
  multiple (dropzone (screen s)) = false
  /\ (forall acceptedFiles : list File,
        displayFile (commit (hooks s)
                       (trace (dz_onDrop (dropzone (screen s)) acceptedFiles)))
        = match acceptedFiles with
          | f :: _ => ref f
          | [] => null
          end)
  /\ file_or_null (displayFile (hooks s))
  /\ length (tracked (hooks s)) <= 1.
Proof.
  intros Hr. apply reachable_settled in Hr. destruct Hr as (Hd & Hm & Hdef).
  split; [reflexivity |]. split; [| split].
  - intros acceptedFiles.
    destruct (FileUploader_settled _ _ Hd Hm) as (_ & _ & Hdrop).
    unfold screen. rewrite Hdrop, commit_onDrop. apply droppedFile_head.
  - now apply file_or_null_defined.
  - unfold tracked. destruct (displayFile (hooks s)); simpl; lia.
Qed.


(** C10. In every render the [noClick] option is the truthiness of the
    cell: it is set exactly when a file is displayed, and then the view
    has no element with the dropzone's root props either. *)
Theorem noClick_iff_file_displayed (p : FileUploaderProps) (h : Hooks) :
  noClick (dropzone (FileUploader p h)) = truthy (displayFile h)
  /\ (noClick (dropzone (FileUploader p h)) = true
      <-> exists f, displayFile h = ref f)
  /\ has_dropzone_root (view (FileUploader p h))
     = negb (noClick (dropzone (FileUploader p h))).
Proof.
  unfold FileUploader; cbn [dropzone noClick view]. unfold Js.not.
  rewrite negb_involutive. split; [reflexivity |]. split.
  - destruct (displayFile h); simpl; split; try discriminate; eauto.
    + intros [f Hf]; discriminate.
    + intros [f Hf]; discriminate.
  - destruct (displayFile h); reflexivity.
Qed.

(* ------------------------------------------------------------------- *)
(** *** Renders by the parent *)

Lemma mounted_eta (s : Mounted) : {| props := props s; hooks := hooks s |} = s.
Proof. destruct s; reflexivity. Qed.

(** What a render with new props does to a settled instance. *)
Lemma dispatch_Rerender (s : Mounted) (p : FileUploaderProps) :
  settled s ->
  dispatch s (Rerender p)
  = Some ({| props := p;
             hooks := {| displayFile :=
                           if strict_eq (file (props s)) (file p)
                           then displayFile (hooks s)
                           else fileToSet (file p);
                         effectDeps := Some (file p);
                         onDropMemo := Some (onDrop (onFileSelect p),
                                             onFileSelect p) |} |},
          if strict_eq (file (props s)) (file p) then []
          else trace (syncEffect (file p) (displayFile (hooks s)))).
Proof.
  intros (Hd & Hm & _). unfold dispatch, render_pass, FileUploader.
  cbn [pending cells]. rewrite Hd, Hm. cbn [useEffect_fires useCallback].
  unfold strict_neq.
  assert (Hcb : (if same_callback (onFileSelect (props s)) (onFileSelect p)
                 then onDrop (onFileSelect (props s))
                 else onDrop (onFileSelect p)) = onDrop (onFileSelect p)).
  { destruct (same_callback_spec (onFileSelect (props s)) (onFileSelect p))
      as [-> | _]; reflexivity. }
  rewrite Hcb.
  destruct (strict_eq (file (props s)) (file p)); cbn [negb flat_map].
  - reflexivity.
  - rewrite app_nil_r. unfold commit. cbn [displayFile effectDeps onDropMemo].
    rewrite syncEffect_result. reflexivity.
Qed.


(** X2. A render by the parent with another [file] prop makes the cell
    follow the prop, [undefined] counting as [null], whatever was dropped or
    removed before. *)
Theorem Rerender_follows_changed_file
  (s s' : Mounted) (p : FileUploaderProps) (t : list effect) :
  reachable s ->
  dispatch s (Rerender p) = Some (s', t) ->
  file p <> file (props s) ->
  displayFile (hooks s')
  = match file p with
    | undefined => null
    | null => null
    | ref f => ref f
    end
  /\ props s' = p.
Proof.
  intros Hr Hev Hfile. apply reachable_settled in Hr.
  rewrite dispatch_Rerender in Hev by assumption.
  destruct (strict_eq_spec (file (props s)) (file p)) as [Heq | _];
    [congruence |].
  injection Hev as <- <-. cbn [hooks displayFile props].
  split; [| reflexivity]. destruct (file p); reflexivity.
Qed.

(** X3. A reachable instance is at rest: rendering it again with the props
    it has changes no cell and performs no effect, so the update made by
    the sync effect cannot feed a loop of renders. *)
Theorem Rerender_same_props_is_noop (s : Mounted) :
  reachable s ->
  dispatch s (Rerender (props s)) = Some (s, []).
Proof.
  intros Hr. apply reachable_settled in Hr.
  rewrite dispatch_Rerender by assumption. destruct Hr as (Hd & Hm & _).
  rewrite strict_eq_refl, <- Hd, <- Hm, hooks_eta, mounted_eta. reflexivity.
Qed.

(** X4. A removal is local: after the cross button was clicked, a render by
    the parent that still passes the same [file] prop does not bring the
    file back; the cell stays [null] and the drop area stays on screen. *)
Theorem removal_survives_rerender
  (s : Mounted) (f : File) (p : FileUploaderProps) :
  reachable s ->
  displayFile (hooks s) = ref f ->
  file p = file (props s) ->
  exists (s1 s2 : Mounted) (t1 : list effect),
    dispatch s ClickRemove = Some (s1, t1)
    /\ dispatch s1 (Rerender p) = Some (s2, [])
    /\ displayFile (hooks s2) = null
    /\ has_dropzone_root (view (screen s2)) = true.
Proof.
  intros Hr Hf Hfile. apply reachable_settled in Hr.
  pose proof (dispatch_ClickRemove s Hr) as H1. rewrite Hf in H1.
  cbn [truthy] in H1.
  pose proof (dispatch_settled _ _ _ _ Hr H1) as Hs1.
  pose proof (dispatch_Rerender _ p Hs1) as H2.
  cbn [props hooks] in H2. rewrite Hfile, strict_eq_refl in H2.
  eexists _, _, _. split; [exact H1 |]. split; [exact H2 |].
  assert (Hcell : displayFile (commit (hooks s)
                    (trace (handleRemoveFile (onFileSelect (props s))))) = null)
    by apply commit_handleRemoveFile.
  split.
  - cbn [hooks displayFile]. exact Hcell.
  - rewrite has_dropzone_root_screen. cbn [hooks displayFile].
    rewrite Hcell. reflexivity.
Qed.

(** X5. Following the [file] prop is silent: neither mounting nor a render
    by the parent calls a function of the parent; every such render is
    handled and installs the new props. *)
Theorem prop_sync_never_notifies (p : FileUploaderProps) :
  calls (snd (mount p)) = []
  /\ forall s : Mounted,
       exists (s' : Mounted) (t : list effect),
         dispatch s (Rerender p) = Some (s', t)
         /\ calls t = []
         /\ props s' = p.
Proof.
  split; [apply mount_calls |].
  intros s. unfold dispatch.
  pose proof (render_pass_calls p (hooks s)) as H.
  destruct (render_pass p (hooks s)) as [h t].
  eexists _, _. split; [reflexivity |]. split; [exact H | reflexivity].
Qed.

(* ------------------------------------------------------------------- *)
(** *** Drops and removals in sequence *)

Lemma calls_onDrop (cb : option Callback) (acceptedFiles : list File) :
  calls (trace (onDrop cb acceptedFiles))
  = notified cb (Js.or (Js.nth acceptedFiles 0) null).
Proof. destruct cb; reflexivity. Qed.

Lemma calls_handleRemoveFile (cb : option Callback) :
  calls (trace (handleRemoveFile cb)) = notified cb null.
Proof. destruct cb; reflexivity. Qed.

Lemma commit_commit_restores (h : Hooks) (t1 t2 : list effect) :
  displayFile (commit (commit h t1) t2) = displayFile h ->
  commit (commit h t1) t2 = h.
Proof.
  intros H. destruct h as [d e m]. unfold commit in *.
  cbn [displayFile effectDeps onDropMemo] in *. now f_equal.
Qed.

(** X6. Dropping a file on the empty drop area and then clicking the cross
    button brings the instance back to the state it was in; the parent,
    when it gave a callback, was told the file and then [null]. *)
Theorem drop_then_remove_restores
  (s : Mounted) (f : File) (rest : list File) :
  reachable s ->
  displayFile (hooks s) = null ->
  exists (s1 : Mounted) (t1 t2 : list effect),
    dispatch s (Drop (f :: rest)) = Some (s1, t1)
    /\ dispatch s1 ClickRemove = Some (s, t2)
    /\ calls (t1 ++ t2)
       = notified (onFileSelect (props s)) (ref f)
         ++ notified (onFileSelect (props s)) null.
Proof.
  intros Hr Hnull. apply reachable_settled in Hr.
  pose proof (dispatch_Drop s (f :: rest) Hr) as H1. rewrite Hnull in H1.
  cbn [truthy] in H1. cbv zeta in H1.
  pose proof (dispatch_settled _ _ _ _ Hr H1) as Hs1.
  pose proof (dispatch_ClickRemove _ Hs1) as H2.
  cbn [props hooks] in H2. rewrite commit_onDrop in H2.
  cbn [Js.nth nth_error Js.or truthy] in H2. cbv zeta in H2.
  rewrite commit_commit_restores, mounted_eta in H2
    by (rewrite commit_handleRemoveFile; now rewrite Hnull).
  eexists _, _, _. split; [exact H1 |]. split; [exact H2 |].
  rewrite calls_app, calls_onDrop, calls_handleRemoveFile. reflexivity.
Qed.

(** X7. What the user can do is decided by the cell: a drop cannot be
    delivered exactly while a file is displayed, and the cross button
    cannot be clicked exactly while none is. *)
Theorem drop_or_remove_by_cell (s : Mounted) :
  reachable s ->
  (forall acceptedFiles : list File,
     dispatch s (Drop acceptedFiles) = None
     <-> exists f, displayFile (hooks s) = ref f)
  /\ (dispatch s ClickRemove = None <-> displayFile (hooks s) = null).
Proof.
  intros Hr. apply reachable_settled in Hr.
  pose proof Hr as (_ & _ & Hdef). split.
  - intros acceptedFiles. rewrite dispatch_Drop by assumption.
    destruct (displayFile (hooks s)) as [| | g]; cbn [truthy]; cbv zeta.
    + congruence.
    + split; [discriminate | intros [f Hf]; discriminate].
    + split; [eauto | reflexivity].
  - rewrite dispatch_ClickRemove by assumption.
    destruct (displayFile (hooks s)) as [| | g]; cbn [truthy]; cbv zeta.
    + congruence.
    + split; reflexivity.
    + split; discriminate.
Qed.

(** X8. The drop handler is never stale: after the parent rendered with
    new props, a drop notifies the [onFileSelect] of these props (and no
    earlier one), with the dropped file. *)
Theorem drop_after_rerender_notifies_new_callback
  (s s1 s2 : Mounted) (p : FileUploaderProps) (f : File) (rest : list File)
  (t1 t2 : list effect) :
  reachable s ->
  dispatch s (Rerender p) = Some (s1, t1) ->
  dispatch s1 (Drop (f :: rest)) = Some (s2, t2) ->
  calls t2 = notified (onFileSelect p) (ref f)
  /\ displayFile (hooks s2) = ref f
  /\ props s2 = p.
Proof.
  intros Hr H1 H2. apply reachable_settled in Hr.
  pose proof (dispatch_settled _ _ _ _ Hr H1) as Hs1.
  assert (Hp : props s1 = p).
  { rewrite dispatch_Rerender in H1 by assumption. now injection H1 as <- _. }
  rewrite dispatch_Drop in H2 by assumption.
  destruct (truthy (displayFile (hooks s1))); [discriminate |].
  cbv zeta in H2. injection H2 as <- <-. rewrite Hp.
  split; [| split].
  - rewrite calls_onDrop. reflexivity.
  - cbn [hooks]. rewrite commit_onDrop. reflexivity.
  - reflexivity.
Qed.

(* ------------------------------------------------------------------- *)
(** *** Sequences of events *)

Lemma run_events_settled (evs : list event) :
  forall (s s' : Mounted) (t : list effect),
    settled s -> run_events s evs = Some (s', t) -> settled s'.
Proof.
  induction evs as [| ev evs IH]; intros s s' t Hs Hrun; cbn in Hrun.
  - now injection Hrun as <- _.
  - destruct (dispatch s ev) as [[s1 t1] |] eqn:H1; [| discriminate].
    destruct (run_events s1 evs) as [[s2 t2] |] eqn:H2; [| discriminate].
    injection Hrun as <- _.
    eapply IH; [| exact H2]. eapply dispatch_settled; eassumption.
Qed.

Lemma fileToSet_ref (v : value) (f : File) : fileToSet v = ref f -> v = ref f.
Proof. destruct v; cbn; congruence. Qed.

(** One event: the file in the cell afterwards was there or came with it. *)
Lemma dispatch_offered (s s' : Mounted) (ev : event) (t : list effect)
  (f : File) :
  settled s ->
  dispatch s ev = Some (s', t) ->
  displayFile (hooks s') = ref f ->
  displayFile (hooks s) = ref f \/ In f (offered ev).
Proof.
  intros Hs Hev Hf. destruct ev as [acceptedFiles | | p].
  - rewrite dispatch_Drop in Hev by assumption.
    destruct (truthy (displayFile (hooks s))); [discriminate |].
    cbv zeta in Hev. injection Hev as <- <-.
    cbn [hooks] in Hf. rewrite commit_onDrop, droppedFile_head in Hf.
    destruct acceptedFiles as [| g rest]; [discriminate |].
    injection Hf as ->. right. now left.
  - rewrite dispatch_ClickRemove in Hev by assumption.
    destruct (truthy (displayFile (hooks s))); [| discriminate].
    cbv zeta in Hev. injection Hev as <- <-.
    cbn [hooks] in Hf. rewrite commit_handleRemoveFile in Hf. discriminate.
  - rewrite dispatch_Rerender in Hev by assumption. injection Hev as <- <-.
    cbn [hooks displayFile] in Hf.
    destruct (strict_eq (file (props s)) (file p)); [now left |].
    right. apply fileToSet_ref in Hf. cbn [offered]. rewrite Hf. now left.
Qed.

(** X10. The instance never shows a file of its own making: after any
    sequence of events, the file in the cell, if any, was in the cell at
    the start or was brought by one of the events, as an accepted file of a
    drop or as the [file] prop of a render. *)
Theorem displayed_file_was_offered
  (evs : list event) (s s' : Mounted) (t : list effect) (f : File) :
  reachable s ->
  run_events s evs = Some (s', t) ->
  displayFile (hooks s') = ref f ->
  displayFile (hooks s) = ref f \/ In f (flat_map offered evs).
Proof.
  intros Hr. apply reachable_settled in Hr. revert s s' t Hr.
  induction evs as [| ev evs IH]; intros s s' t Hs Hrun Hf; cbn in Hrun.
  - injection Hrun as <- _. now left.
  - destruct (dispatch s ev) as [[s1 t1] |] eqn:H1; [| discriminate].
    destruct (run_events s1 evs) as [[s2 t2] |] eqn:H2; [| discriminate].
    injection Hrun as <- _. cbn [flat_map]. rewrite in_app_iff.
    pose proof (dispatch_settled _ _ _ _ Hs H1) as Hs1.
    destruct (IH _ _ _ Hs1 H2 Hf) as [Hin1 | Hlater]; [| now right; right].
    destruct (dispatch_offered _ _ _ _ _ Hs H1 Hin1) as [? | ?];
      [now left | now right; left].
Qed.

(** One event of the user: the parent is told the new content of the
    cell, and the props stay. *)
Lemma dispatch_user_event (s s' : Mounted) (ev : event) (t : list effect)
  (cb : Callback) :
  settled s ->
  onFileSelect (props s) = Some cb ->
  user_event ev = true ->
  dispatch s ev = Some (s', t) ->
  calls t = [(cb, displayFile (hooks s'))] /\ props s' = props s.
Proof.
  intros Hs Hcb Hu Hev. destruct ev as [acceptedFiles | | p];
    [| | discriminate].
  - rewrite dispatch_Drop in Hev by assumption.
    destruct (truthy (displayFile (hooks s))); [discriminate |].
    cbv zeta in Hev. injection Hev as <- <-. cbn [hooks props].
    rewrite calls_onDrop, commit_onDrop, Hcb. now split.
  - rewrite dispatch_ClickRemove in Hev by assumption.
    destruct (truthy (displayFile (hooks s))); [| discriminate].
    cbv zeta in Hev. injection Hev as <- <-. cbn [hooks props].
    rewrite calls_handleRemoveFile, commit_handleRemoveFile, Hcb. now split.
Qed.

Lemma last_cons_default {A} (l : list A) (x d : A) :
  last (x :: l) d = last l x.
Proof.
  revert x d. induction l as [| y l IH]; intros x d; [reflexivity |].
  change (last (x :: y :: l) d) with (last (y :: l) d).
  now rewrite (IH y d), (IH y x).
Qed.

(** X11. The parent that records what [onFileSelect] tells it knows what
    is displayed: over any sequence of drops and removals, it is called
    once per event, and the last value it was given (the content of the
    cell at the start, if there was no event) is the content of the cell
    at the end. *)
Theorem last_notification_is_displayed_file
  (evs : list event) (s s' : Mounted) (t : list effect) (cb : Callback) :
  reachable s ->
  onFileSelect (props s) = Some cb ->
  forallb user_event evs = true ->
  run_events s evs = Some (s', t) ->
  last (map snd (calls t)) (displayFile (hooks s)) = displayFile (hooks s')
  /\ map fst (calls t) = repeat cb (length evs).
Proof.
  intros Hr. apply reachable_settled in Hr. revert s s' t Hr.
  induction evs as [| ev evs IH]; intros s s' t Hs Hcb Hu Hrun; cbn in Hrun.
  - injection Hrun as <- <-. now split.
  - destruct (dispatch s ev) as [[s1 t1] |] eqn:H1; [| discriminate].
    destruct (run_events s1 evs) as [[s2 t2] |] eqn:H2; [| discriminate].
    injection Hrun as <- <-.
    cbn [forallb] in Hu. apply andb_prop in Hu as [Hu1 Hu2].
    destruct (dispatch_user_event _ _ _ _ _ Hs Hcb Hu1 H1) as [Hc Hp].
    pose proof (dispatch_settled _ _ _ _ Hs H1) as Hs1.
    rewrite <- Hp in Hcb.
    destruct (IH _ _ _ Hs1 Hcb Hu2 H2) as [Hlast Hfst].
    rewrite calls_app, Hc. cbn [app map fst snd length repeat].
    rewrite last_cons_default, Hlast, Hfst. now split.
Qed.

End Component.

(* ===================================================================== *)
(** ** The route table: facts *)
(* ===================================================================== *)

(** C7. The table has three entries and no more: the index entry, which
    answers to the root path, gives [routes/home.tsx], [/auth] gives
    [routes/Auth.tsx] and [/upload] gives [routes/Upload.tsx]; an entry is in
    the table exactly when it is one of these three. *)
Theorem routes_are_home_auth_upload :
  length Routes.routes = 3
  /\ map (fun e => (Routes.url_path e, Routes.file e)) Routes.routes
     = [ ("/", "routes/home.tsx");
         ("/auth", "routes/Auth.tsx");
         ("/upload", "routes/Upload.tsx") ]
  /\ map Routes.is_index Routes.routes = [true; false; false]
  /\ forall e : Routes.RouteConfigEntry,
       In e Routes.routes
       <-> e = Routes.index "routes/home.tsx"
           \/ e = Routes.route "/auth" "routes/Auth.tsx"
           \/ e = Routes.route "/upload" "routes/Upload.tsx".
Proof.
  split; [reflexivity |]. split; [reflexivity |]. split; [reflexivity |].
  intros e. unfold Routes.routes. cbn [In]. split.
  - intros [H | [H | [H | []]]]; symmetry in H; tauto.
  - intros [H | [H | H]]; symmetry in H; tauto.
Qed.

(* ===================================================================== *)
(** ** The theorems at sample inputs *)
(* ===================================================================== *)

(** An instance mounted without a [file] prop receives a drop of
    [resume.pdf]. *)
Lemma onDrop_displays_and_notifies_witness :
  reachable Sample.bytes (fst (mount Sample.bytes Sample.with_callback))
  /\ dispatch Sample.bytes (fst (mount Sample.bytes Sample.with_callback))
       (Drop [Sample.resume])
     = Some ({| props := Sample.with_callback;
                hooks := {| displayFile := ref Sample.resume;
                            effectDeps := Some undefined;
                            onDropMemo :=
                              Some (onDrop (Some Sample.parent_handler),
                                    Some Sample.parent_handler) |} |},
             [SetDisplayFile (ref Sample.resume);
              Call Sample.parent_handler (ref Sample.resume)])
  /\ texts (view (screen Sample.bytes
                    {| props := Sample.with_callback;
                       hooks := {| displayFile := ref Sample.resume;
                                   effectDeps := Some undefined;
                                   onDropMemo :=
                                     Some (onDrop (Some Sample.parent_handler),
                                           Some Sample.parent_handler) |} |}))
     = ["resume.pdf"; "48213 Bytes"]
  /\ calls [SetDisplayFile (ref Sample.resume);
            Call Sample.parent_handler (ref Sample.resume)]
     = [(Sample.parent_handler, ref Sample.resume)].
Proof.
  assert (Hr : reachable Sample.bytes
                 (fst (mount Sample.bytes Sample.with_callback)))
    by apply reach_mount.
  split; [exact Hr |]. split; [reflexivity |].
  exact (proj2 (onDrop_displays_and_notifies Sample.bytes _ _ Sample.resume []
                  _ Hr eq_refl)).
Defined.

(** An instance mounted with [file = resume.pdf] has its cross button
    clicked. *)
Lemma handleRemoveFile_clears_and_notifies_witness :
  reachable Sample.bytes (fst (mount Sample.bytes Sample.controlled))
  /\ displayFile (hooks (fst (mount Sample.bytes Sample.controlled)))
     = ref Sample.resume
  /\ exists (s' : Mounted) (t : list effect),
       dispatch Sample.bytes (fst (mount Sample.bytes Sample.controlled))
         ClickRemove = Some (s', t)
       /\ displayFile (hooks s') = null
       /\ view (screen Sample.bytes s')
          = Elem "div" [Attr "className" "w-full gradient-border"]
              [drag_area Sample.bytes]
       /\ has_dropzone_root (view (screen Sample.bytes s')) = true
       /\ calls t = [(Sample.parent_handler, null)].
Proof.
  assert (Hr : reachable Sample.bytes
                 (fst (mount Sample.bytes Sample.controlled)))
    by apply reach_mount.
  split; [exact Hr |]. split; [reflexivity |].
  exact (handleRemoveFile_clears_and_notifies Sample.bytes _ Sample.resume
           Hr eq_refl).
Defined.

(** The instance that displays [resume.pdf] after mounting. *)
Lemma at_most_one_file_tracked_witness :
  reachable Sample.bytes (fst (mount Sample.bytes Sample.controlled))
  /\ multiple (dropzone (screen Sample.bytes
                           (fst (mount Sample.bytes Sample.controlled))))
     = false
  /\ tracked (hooks (fst (mount Sample.bytes Sample.controlled)))
     = [Sample.resume]
  /\ length (tracked (hooks (fst (mount Sample.bytes Sample.controlled)))) <= 1.
Proof.
  assert (Hr : reachable Sample.bytes
                 (fst (mount Sample.bytes Sample.controlled)))
    by apply reach_mount.
  split; [exact Hr |].
  destruct (at_most_one_file_tracked Sample.bytes _ Hr) as (Hm & _ & _ & Hlen).
  split; [exact Hm |]. split; [reflexivity | exact Hlen].
Defined.



(** The parent of an instance mounted without [file] passes [resume.pdf]. *)
Lemma Rerender_follows_changed_file_witness :
  reachable Sample.bytes (fst (mount Sample.bytes Sample.with_callback))
  /\ file Sample.controlled
     <> file (props (fst (mount Sample.bytes Sample.with_callback)))
  /\ exists (s' : Mounted) (t : list effect),
       dispatch Sample.bytes (fst (mount Sample.bytes Sample.with_callback))
         (Rerender Sample.controlled) = Some (s', t)
       /\ displayFile (hooks s') = ref Sample.resume
       /\ props s' = Sample.controlled.
Proof.
  assert (Hr : reachable Sample.bytes
                 (fst (mount Sample.bytes Sample.with_callback)))
    by apply reach_mount.
  assert (Hne : file Sample.controlled
                <> file (props (fst (mount Sample.bytes Sample.with_callback))))
    by discriminate.
  split; [exact Hr |]. split; [exact Hne |].
  eexists _, _. split; [reflexivity |].
  exact (Rerender_follows_changed_file Sample.bytes _ _ Sample.controlled _
           Hr eq_refl Hne).
Defined.

(** The instance mounted with [file = resume.pdf], rendered once more. *)
Lemma Rerender_same_props_is_noop_witness :
  reachable Sample.bytes (fst (mount Sample.bytes Sample.controlled))
  /\ dispatch Sample.bytes (fst (mount Sample.bytes Sample.controlled))
       (Rerender Sample.controlled)
     = Some (fst (mount Sample.bytes Sample.controlled), []).
Proof.
  assert (Hr : reachable Sample.bytes
                 (fst (mount Sample.bytes Sample.controlled)))
    by apply reach_mount.
  split; [exact Hr |].
  exact (Rerender_same_props_is_noop Sample.bytes _ Hr).
Defined.

(** [resume.pdf] came as the [file] prop, is removed, and the parent keeps
    passing it. *)
Lemma removal_survives_rerender_witness :
  reachable Sample.bytes (fst (mount Sample.bytes Sample.controlled))
  /\ displayFile (hooks (fst (mount Sample.bytes Sample.controlled)))
     = ref Sample.resume
  /\ file Sample.controlled
     = file (props (fst (mount Sample.bytes Sample.controlled)))
  /\ exists (s1 s2 : Mounted) (t1 : list effect),
       dispatch Sample.bytes (fst (mount Sample.bytes Sample.controlled))
         ClickRemove = Some (s1, t1)
       /\ dispatch Sample.bytes s1 (Rerender Sample.controlled) = Some (s2, [])
       /\ displayFile (hooks s2) = null
       /\ has_dropzone_root (view (screen Sample.bytes s2)) = true.
Proof.
  assert (Hr : reachable Sample.bytes
                 (fst (mount Sample.bytes Sample.controlled)))
    by apply reach_mount.
  split; [exact Hr |]. split; [reflexivity |]. split; [reflexivity |].
  exact (removal_survives_rerender Sample.bytes _ Sample.resume
           Sample.controlled Hr eq_refl eq_refl).
Defined.

(** [resume.pdf] is dropped on a fresh instance and removed again. *)
Lemma drop_then_remove_restores_witness :
  reachable Sample.bytes (fst (mount Sample.bytes Sample.with_callback))
  /\ displayFile (hooks (fst (mount Sample.bytes Sample.with_callback))) = null
  /\ exists (s1 : Mounted) (t1 t2 : list effect),
       dispatch Sample.bytes (fst (mount Sample.bytes Sample.with_callback))
         (Drop [Sample.resume]) = Some (s1, t1)
       /\ dispatch Sample.bytes s1 ClickRemove
          = Some (fst (mount Sample.bytes Sample.with_callback), t2)
       /\ calls (t1 ++ t2)
          = [(Sample.parent_handler, ref Sample.resume);
             (Sample.parent_handler, null)].
Proof.
  assert (Hr : reachable Sample.bytes
                 (fst (mount Sample.bytes Sample.with_callback)))
    by apply reach_mount.
  split; [exact Hr |]. split; [reflexivity |].
  exact (drop_then_remove_restores Sample.bytes _ Sample.resume [] Hr eq_refl).
Defined.

(** While [resume.pdf] is displayed no drop is delivered, and the cross
    button can be clicked. *)
Lemma drop_or_remove_by_cell_witness :
  reachable Sample.bytes (fst (mount Sample.bytes Sample.controlled))
  /\ dispatch Sample.bytes (fst (mount Sample.bytes Sample.controlled))
       (Drop [Sample.letter]) = None
  /\ dispatch Sample.bytes (fst (mount Sample.bytes Sample.controlled))
       ClickRemove <> None.
Proof.
  assert (Hr : reachable Sample.bytes
                 (fst (mount Sample.bytes Sample.controlled)))
    by apply reach_mount.
  split; [exact Hr |].
  destruct (drop_or_remove_by_cell Sample.bytes _ Hr) as [Hdrop Hclick].
  split.
  - apply Hdrop. exists Sample.resume. reflexivity.
  - intros Hnone. apply Hclick in Hnone. discriminate Hnone.
Defined.

(** The parent swaps its callback, then [letter.pdf] is dropped. *)
Lemma drop_after_rerender_notifies_new_callback_witness :
  reachable Sample.bytes (fst (mount Sample.bytes Sample.with_callback))
  /\ exists (s1 s2 : Mounted) (t1 t2 : list effect),
       dispatch Sample.bytes (fst (mount Sample.bytes Sample.with_callback))
         (Rerender Sample.with_other_callback) = Some (s1, t1)
       /\ dispatch Sample.bytes s1 (Drop [Sample.letter]) = Some (s2, t2)
       /\ calls t2 = [(Sample.other_handler, ref Sample.letter)]
       /\ displayFile (hooks s2) = ref Sample.letter
       /\ props s2 = Sample.with_other_callback.
Proof.
  assert (Hr : reachable Sample.bytes
                 (fst (mount Sample.bytes Sample.with_callback)))
    by apply reach_mount.
  split; [exact Hr |].
  eexists _, _, _, _. split; [reflexivity |]. split; [reflexivity |].
  exact (drop_after_rerender_notifies_new_callback Sample.bytes _ _ _
           Sample.with_other_callback Sample.letter [] _ _ Hr eq_refl eq_refl).
Defined.

(** A drop, a removal, then the parent passes [resume.pdf] as [file]. *)
Lemma displayed_file_was_offered_witness :
  reachable Sample.bytes (fst (mount Sample.bytes Sample.with_callback))
  /\ exists (s' : Mounted) (t : list effect),
       run_events Sample.bytes (fst (mount Sample.bytes Sample.with_callback))
         [Drop [Sample.letter]; ClickRemove; Rerender Sample.controlled]
       = Some (s', t)
       /\ displayFile (hooks s') = ref Sample.resume
       /\ (displayFile (hooks (fst (mount Sample.bytes Sample.with_callback)))
           = ref Sample.resume
           \/ In Sample.resume [Sample.letter; Sample.resume]).
Proof.
  assert (Hr : reachable Sample.bytes
                 (fst (mount Sample.bytes Sample.with_callback)))
    by apply reach_mount.
  split; [exact Hr |].
  eexists _, _. split; [reflexivity |]. split; [reflexivity |].
  exact (displayed_file_was_offered Sample.bytes
           [Drop [Sample.letter]; ClickRemove; Rerender Sample.controlled]
           _ _ _ Sample.resume Hr eq_refl eq_refl).
Defined.

(** A drop, a removal and a drop of two files: three calls, the last one
    with the file that is displayed. *)
Lemma last_notification_is_displayed_file_witness :
  reachable Sample.bytes (fst (mount Sample.bytes Sample.with_callback))
  /\ onFileSelect (props (fst (mount Sample.bytes Sample.with_callback)))
     = Some Sample.parent_handler
  /\ exists (s' : Mounted) (t : list effect),
       run_events Sample.bytes (fst (mount Sample.bytes Sample.with_callback))
         [Drop [Sample.resume]; ClickRemove; Drop [Sample.letter; Sample.resume]]
       = Some (s', t)
       /\ map snd (calls t) = [ref Sample.resume; null; ref Sample.letter]
       /\ displayFile (hooks s') = ref Sample.letter
       /\ last (map snd (calls t)) null = displayFile (hooks s')
       /\ map fst (calls t)
          = [Sample.parent_handler; Sample.parent_handler;
             Sample.parent_handler].
Proof.
  assert (Hr : reachable Sample.bytes
                 (fst (mount Sample.bytes Sample.with_callback)))
    by apply reach_mount.
  split; [exact Hr |]. split; [reflexivity |].
  eexists _, _. split; [reflexivity |]. split; [reflexivity |].
  split; [reflexivity |].
  exact (last_notification_is_displayed_file Sample.bytes
           [Drop [Sample.resume]; ClickRemove;
            Drop [Sample.letter; Sample.resume]]
           _ _ _ Sample.parent_handler Hr eq_refl eq_refl eq_refl).
Defined.
